(** * Change tracking for denormalized aggregate fields

    A shallow embedding of [denormalized/tracker.py] (class
    [DenormalizedTracker]) and the properties of its incremental update
    plans.  Python objects are records, [getattr] is a lookup by attribute
    name that can raise, and every function that can raise returns a
    [result]. *)

From Stdlib Require Import ZArith List String Bool Lia.
Import ListNotations.
Local Open Scope string_scope.
Local Open Scope list_scope.
Local Open Scope Z_scope.
Set Warnings "-register-all".

(** ** Exceptions and the error monad *)

(** The exceptions the tracker can let escape. *)
Inductive exn : Type :=
| ObjectDoesNotExist
| AttributeError (attr : string)
| NameError (name : string)
| TypeError
| NotImplementedError.

Inductive result (A : Type) : Type :=
| Ok (a : A)
| Raise (e : exn).
Arguments Ok {A} a.
Arguments Raise {A} e.

Definition bind {A B : Type} (r : result A) (k : A -> result B) : result B :=
  match r with
  | Ok a => k a
  | Raise e => Raise e
  end.

Notation "x <- r ;; k" := (bind r (fun x => k))
  (at level 61, r at next level, right associativity).

(** ** Python objects *)

(** The value of a numeric model field: a plain number, or a
    [CombinedExpression] (an [F()] expression assigned to the field and
    not yet evaluated).  [in_db] is the number [refresh_from_db] loads
    for that field. *)
Inductive field_value : Type :=
| Concrete (z : Z)
| Combined (in_db : Z).

(** The parent (foreign) object: its primary key and its stored fields;
    a field holding [None] is NULL in the database. *)
Record parent : Type := mk_parent {
  pk : Z;
  pfields : list (string * option Z)
}.

(** What reading a foreign key attribute of a child does: it yields the
    related object (or [None] when the key is NULL), or raises
    [ObjectDoesNotExist]. *)
Inductive relation : Type :=
| Resolves (fo : option parent)
| DoesNotExist.

(** A child model instance.  [previous_version] is the attribute
    [_denormalized_previous_version]; [None] means the attribute is not
    set on the object.  [in_database] tells whether the row of the
    instance is still in the database. *)
Inductive instance : Type := Build_instance {
  attrs : list (string * field_value);
  relations : list (string * relation);
  previous_version : option instance;
  in_database : bool
}.

(** An instance whose row is in the database. *)
Definition mk_instance (attrs : list (string * field_value))
    (relations : list (string * relation)) (previous : option instance)
  : instance :=
  Build_instance attrs relations previous true.

Fixpoint assoc {V : Type} (name : string) (l : list (string * V)) : option V :=
  match l with
  | [] => None
  | (k, v) :: rest => if String.eqb k name then Some v else assoc name rest
  end.

(** [getattr(instance, name)] for a numeric field. *)
Definition getattr_field (i : instance) (name : string) : result field_value :=
  match assoc name (attrs i) with
  | Some v => Ok v
  | None => Raise (AttributeError name)
  end.

(** [getattr(instance, name)] for a foreign key. *)
Definition getattr_related (i : instance) (name : string)
  : result (option parent) :=
  match assoc name (relations i) with
  | Some (Resolves fo) => Ok fo
  | Some DoesNotExist => Raise ObjectDoesNotExist
  | None => Raise (AttributeError name)
  end.

(** [getattr(foreign_object, name)]; the foreign object may be [None]. *)
Definition getattr_parent (fo : option parent) (name : string)
  : result (option Z) :=
  match fo with
  | None => Raise (AttributeError name)
  | Some p =>
      match assoc name (pfields p) with
      | Some v => Ok v
      | None => Raise (AttributeError name)
      end
  end.

Definition PREVIOUS_VERSION_FIELD : string := "_denormalized_previous_version".

(** [getattr(instance, PREVIOUS_VERSION_FIELD)]. *)
Definition getattr_previous (i : instance) : result instance :=
  match previous_version i with
  | Some old => Ok old
  | None => Raise (AttributeError PREVIOUS_VERSION_FIELD)
  end.

(** The fields after [instance.refresh_from_db(fields=(name,))]: the
    named field is replaced by the number the database holds. *)
Fixpoint refresh_attrs (name : string) (l : list (string * field_value))
  : list (string * field_value) :=
  match l with
  | [] => []
  | (k, v) :: rest =>
      if String.eqb k name then
        (k, match v with Concrete z => Concrete z | Combined z => Concrete z end)
          :: rest
      else (k, v) :: refresh_attrs name rest
  end.

(** [instance.refresh_from_db(fields=(name,))]: it reloads the named
    field from the row of the instance and raises [DoesNotExist] (an
    [ObjectDoesNotExist]) when the row is gone. *)
Definition refresh_from_db (i : instance) (name : string) : result instance :=
  if in_database i then
    Ok (Build_instance (refresh_attrs name (attrs i)) (relations i)
          (previous_version i) true)
  else Raise ObjectDoesNotExist.

(** Equality of two foreign objects ([==] of Django models of one class:
    equal primary keys; [None] equals only [None]). *)
Definition parent_eqb (a b : option parent) : bool :=
  match a, b with
  | None, None => true
  | Some p, Some q => Z.eqb (pk p) (pk q)
  | _, _ => false
  end.

(** ** The tracker *)

(** [self.aggregate]: the aggregates the tracker knows, with the name of
    the source expression, and any other aggregate class. *)
Inductive aggregate : Type :=
| Count
| Sum (arg : string)
| Min (arg : string)
| OtherAggregate.

(** The attributes of the tracker.  [callback_of] is [self.callback]:
    the function that was passed, or [None] for the default of the
    signature, [lambda obj: True]. *)
Record DenormalizedTracker : Type := mk_tracker {
  field : string;
  aggregate_of : aggregate;
  query : instance -> bool;
  callback_of : option (instance -> bool);
  foreign_key : string
}.

(** The call [self.callback(instance)]. *)
Definition callback (self : DenormalizedTracker) (i : instance) : bool :=
  match callback_of self with
  | Some f => f i
  | None => true
  end.

(** [DenormalizedTracker.__init__]: the keyword arguments that were not
    passed are [None] here and take the defaults of the signature,
    [Count('*')], [Q()] (which every object satisfies) and
    [lambda obj: True]. *)
Definition __init__ (field : string) (aggregate : option aggregate)
    (query : option (instance -> bool)) (callback : option (instance -> bool))
    (related_name : string) : DenormalizedTracker :=
  mk_tracker field
    (match aggregate with Some a => a | None => Count end)
    (match query with Some q => q | None => fun _ => true end)
    callback
    related_name.

(** One plan entry: the foreign object and the update
    [{field: F(field) + increment}]. *)
Record IncrementalUpdates : Type := mk_updates {
  upd_field : string;
  upd_increment : Z
}.

Definition entry : Type := parent * IncrementalUpdates.

Section Tracker.

Variable self : DenormalizedTracker.

(** [_get_full_aggregate]: computes the full aggregate excluding the
    passed instance; the class leaves it unimplemented. *)
Definition _get_full_aggregate (i : instance) : result Z :=
  Raise NotImplementedError.

(** [_get_delta(instance, deleted)]; [deleted] is [Optional[bool]].
    Only the [Sum] branch refreshes a [CombinedExpression]; in the [Min]
    branch [<] and [min] applied to one, or to a NULL minimum, raise
    [TypeError], and a value returned as it is stands for the number it
    denotes. *)
Definition _get_delta (i : instance) (deleted : option bool) : result Z :=
  match aggregate_of self with
  | Count => Ok 1
  | Sum arg =>
      value <- getattr_field i arg ;;
      match value with
      | Concrete z => Ok z
      | Combined _ =>
          refreshed <- refresh_from_db i arg ;;
          value' <- getattr_field refreshed arg ;;
          match value' with
          | Concrete z => Ok z
          | Combined z => Ok z
          end
      end
  | Min arg =>
      value <- getattr_field i arg ;;
      foreign_object <- getattr_related i (foreign_key self) ;;
      min_value <- getattr_parent foreign_object (field self) ;;
      match deleted with
      | Some true =>
          match min_value, value with
          | Some m, Concrete v =>
              if m <? v then Ok 0 else _get_full_aggregate i
          | _, _ => Raise TypeError
          end
      | Some false =>
          match min_value, value with
          | None, Concrete v => Ok v
          | None, Combined v => Ok v
          | Some m, Concrete v => Ok (Z.min m v - m)
          | Some m, Combined _ => Raise TypeError
          end
      | None => Ok 0
      end
  | OtherAggregate => Raise NotImplementedError
  end.

(** [_update_value(foreign_object, delta, sign)]. *)
Definition _update_value (foreign_object : option parent) (delta sign : Z)
  : option entry :=
  match foreign_object with
  | None => None
  | Some p =>
      if delta =? 0 then None
      else Some (p, mk_updates (field self) (delta * sign))
  end.

(** The name [old_delta] is read in [track_changes] but bound nowhere,
    neither in the function nor in the module. *)
Definition old_delta : result Z := Raise (NameError "old_delta").

Definition b2z (b : bool) : Z := if b then 1 else 0.

Definition is_entry (o : option entry) : bool :=
  match o with Some _ => true | None => false end.

(** [track_changes(instance, created, deleted)].  The create and delete
    branches return a one-element tuple holding what [_update_value]
    returned ([None] included); the update branch returns
    [filter(None, changed)]. *)
Definition track_changes (i : instance) (created deleted : bool)
  : result (list (option entry)) :=
  foreign_object <-
    match getattr_related i (foreign_key self) with
    | Raise ObjectDoesNotExist => Ok None
    | r => r
    end ;;
  let is_suitable := callback self i in
  delta <- _get_delta i (Some false) ;;
  if created then
    if is_suitable then Ok [_update_value foreign_object delta 1]
    else Ok []
  else if deleted then
    if is_suitable then Ok [_update_value foreign_object delta (-1)]
    else Ok []
  else
    old_instance <- getattr_previous i ;;
    let old_suitable := callback self old_instance in
    old_foreign_object <- getattr_related old_instance (foreign_key self) ;;
    let sign := b2z is_suitable - b2z old_suitable in
    changed <-
      (if parent_eqb foreign_object old_foreign_object && negb (sign =? 0)
       then Ok [_update_value foreign_object delta sign]
       else if negb (parent_eqb foreign_object old_foreign_object) then
         first <-
           (if old_suitable then
              od <- old_delta ;;
              Ok [_update_value old_foreign_object od (-1)]
            else Ok []) ;;
         second <-
           Ok (if is_suitable then [_update_value foreign_object delta 1]
               else []) ;;
         Ok (first ++ second)
       else
         od <- old_delta ;;
         Ok [_update_value foreign_object (delta - od) 1]) ;;
    Ok (filter is_entry changed).

End Tracker.

(** Membership of an instance as [track_changes] evaluates it:
    [self.callback(instance)]. *)
Definition is_suitable (self : DenormalizedTracker) (i : instance) : bool :=
  callback self i.

(** The delta calculator asked for a full recompute: [_get_delta] handed
    over to [_get_full_aggregate]. *)
Definition full_recompute {A : Type} (r : result A) : Prop :=
  r = Raise NotImplementedError.

(** ** Applying a plan and the ground truth *)

(** The stored value of the tracked field per parent primary key; [None]
    is NULL. *)
Definition store : Type := Z -> option Z.

(** The value of the update [F(field) + increment] that an entry
    carries, on the current value of the field; NULL stays NULL. *)
Definition F_add (current : option Z) (increment : Z) : option Z :=
  match current with
  | Some v => Some (v + increment)
  | None => None
  end.

Definition apply_entry (st : store) (e : entry) : store :=
  fun q => if q =? pk (fst e) then F_add (st q) (upd_increment (snd e))
           else st q.

(** Modelled from the spec: the Aggregate Applier, an external
    collaborator that is not part of [tracker.py], applies each
    [(parent, delta)] entry of a plan, in order, as [field += delta] on
    that parent; what is not an entry is skipped. *)
Definition apply_plan (plan : list (option entry)) (st : store) : store :=
  fold_left
    (fun acc o => match o with Some e => apply_entry acc e | None => acc end)
    plan st.

(** Modelled from the spec: the Membership Evaluator applies the
    membership function if one was supplied and evaluates the filter
    predicate otherwise. *)
Definition evaluate (self : DenormalizedTracker) (c : instance) : bool :=
  match callback_of self with
  | Some f => f c
  | None => query self c
  end.

(** A child qualifies for parent [p]: its membership, as the spec
    evaluates it, holds and its foreign key resolves to [p]. *)
Definition qualifies (self : DenormalizedTracker) (p : Z) (c : instance)
  : bool :=
  evaluate self c &&
  match getattr_related c (foreign_key self) with
  | Ok (Some q) => pk q =? p
  | _ => false
  end.

Definition operand (arg : string) (c : instance) : Z :=
  match getattr_field c arg with
  | Ok (Concrete z) => z
  | Ok (Combined z) => z
  | Raise _ => 0
  end.

Definition sumZ (l : list Z) : Z := fold_right Z.add 0 l.

Definition minZ (l : list Z) : option Z :=
  match l with
  | [] => None
  | x :: rest => Some (fold_right Z.min x rest)
  end.

(** Modelled from the spec: the true aggregate of parent [p], recomputed
    over its qualifying children ([Count]: their number; [Sum]: the sum
    of their operands; [Min]: the least operand, or no value). *)
Definition ground_truth (self : DenormalizedTracker) (children : list instance)
    (p : Z) : option Z :=
  let qs := filter (qualifies self p) children in
  match aggregate_of self with
  | Count => Some (Z.of_nat (List.length qs))
  | Sum arg => Some (sumZ (map (operand arg) qs))
  | Min arg => minZ (map (operand arg) qs)
  | OtherAggregate => None
  end.

(** What one qualifying child adds to the aggregate of its parent, for
    the aggregates that are sums over the children. *)
Definition contribution (self : DenormalizedTracker) (c : instance) : Z :=
  match aggregate_of self with
  | Count => 1
  | Sum arg => operand arg c
  | _ => 0
  end.

Definition additive (self : DenormalizedTracker) : Prop :=
  aggregate_of self = Count \/ exists arg, aggregate_of self = Sum arg.

(** The operand of a child can be read as a number: the field is there,
    and when it holds an unevaluated expression the row of the child is
    in the database, so that the refresh succeeds. *)
Definition operand_readable (arg : string) (c : instance) : bool :=
  match assoc arg (attrs c) with
  | Some (Concrete _) => true
  | Some (Combined _) => in_database c
  | None => false
  end.

Definition readable (self : DenormalizedTracker) (c : instance) : Prop :=
  forall arg, aggregate_of self = Sum arg -> operand_readable arg c = true.

(** ** Concrete trackers and objects *)

Module Scenario.

Definition P : parent := mk_parent 1 [("total", Some 0)].

Definition sum_tracker : DenormalizedTracker :=
  __init__ "total" (Some (Sum "amount")) None None "parent".

Definition child10 : instance :=
  mk_instance [("amount", Concrete 10)] [("parent", Resolves (Some P))] None.

Definition child25 : instance :=
  mk_instance [("amount", Concrete 25)] [("parent", Resolves (Some P))]
    (Some child10).

Definition A : parent := mk_parent 1 [("n", Some 1)].
Definition B : parent := mk_parent 2 [("n", Some 0)].

Definition count_tracker : DenormalizedTracker :=
  __init__ "n" None None None "parent".

Definition under_A : instance :=
  mk_instance [] [("parent", Resolves (Some A))] None.

(** The child after it moved from [A] to [B]. *)
Definition moved : instance :=
  mk_instance [] [("parent", Resolves (Some B))] (Some under_A).

(** The child saved again with nothing changed. *)
Definition unchanged : instance :=
  mk_instance [] [("parent", Resolves (Some A))] (Some under_A).

Definition M3 : parent := mk_parent 1 [("min_price", Some 3)].

Definition min_tracker : DenormalizedTracker :=
  __init__ "min_price" (Some (Min "price")) None None "parent".

Definition priced (v : Z) (old : option instance) : instance :=
  mk_instance [("price", Concrete v)] [("parent", Resolves (Some M3))] old.

Definition c3 : instance := priced 3 None.
Definition c5 : instance := priced 5 None.
Definition c7 : instance := priced 7 None.

(** The stored minimum of [M3] before any event. *)
Definition stored : store := fun q => if q =? 1 then Some 3 else None.

(** A child whose parent is gone (cascade deletion). *)
Definition orphan : instance :=
  mk_instance [("price", Concrete 3)] [("parent", DoesNotExist)] None.

(** The operand-3 child after its price was changed to 5. *)
Definition repriced : instance := priced 5 (Some c3).

(** A filter predicate "status == active" over a field [active]. *)
Definition only_active (i : instance) : bool :=
  match getattr_field i "active" with
  | Ok (Concrete 1) => true
  | _ => false
  end.



End Scenario.

(** Further objects: children with a membership flag and an amount. *)
Module Cases.

Import Scenario.

(** A [Count] tracker whose membership function is "status == active". *)
Definition active_tracker : DenormalizedTracker :=
  __init__ "n" None None (Some only_active) "parent".

(** A [Sum] tracker over [amount] with the same membership function. *)
Definition active_sum_tracker : DenormalizedTracker :=
  __init__ "total" (Some (Sum "amount")) None (Some only_active) "parent".

Definition member (active amount : Z) (fo : relation) (old : option instance)
  : instance :=
  mk_instance [("active", Concrete active); ("amount", Concrete amount)]
    [("parent", fo)] old.

(** An inactive child of [A] with amount 10, and the same child after it
    became active with amount 25. *)
Definition idle : instance := member 0 10 (Resolves (Some A)) None.
Definition activated : instance := member 1 25 (Resolves (Some A)) (Some idle).

(** The active child of [A] with amount 10 after it became inactive with
    amount 25. *)
Definition busy : instance := member 1 10 (Resolves (Some A)) None.
Definition retired : instance := member 0 25 (Resolves (Some A)) (Some busy).

(** The inactive child of [A] after it moved to [B] and became active. *)
Definition adopted : instance := member 1 25 (Resolves (Some B)) (Some idle).

(** A child whose previous version cannot resolve its parent. *)
Definition lost : instance := member 1 10 DoesNotExist None.
Definition found : instance := member 1 10 (Resolves (Some A)) (Some lost).

(** A child without parent (NULL foreign key). *)
Definition parentless : instance :=
  mk_instance [("price", Concrete 3)] [("parent", Resolves None)] None.

(** A child whose amount is an expression the database evaluates to 7. *)
Definition pending : instance :=
  mk_instance [("amount", Combined 7)] [("parent", Resolves (Some P))] None.

(** The same child after its row was deleted from the database. *)
Definition vanished : instance :=
  Build_instance [("amount", Combined 7)] [("parent", Resolves (Some P))]
    None false.

(** A tracker of an aggregate the calculator does not know. *)
Definition max_tracker : DenormalizedTracker :=
  __init__ "n" (Some OtherAggregate) None None "parent".

End Cases.

(** ** General facts about the tracker *)

Section Facts.

Variable self : DenormalizedTracker.

Lemma bind_ok {A B : Type} (r : result A) (a : A) (k : A -> result B) :
  r = Ok a -> bind r k = k a.
Proof. intros ->; reflexivity. Qed.

Lemma Ok_inj {A : Type} (a b : A) : Ok a = Ok b -> a = b.
Proof. intros H; injection H; trivial. Qed.

Lemma get_delta_count (i : instance) (deleted : option bool) :
  aggregate_of self = Count -> _get_delta self i deleted = Ok 1.
Proof. unfold _get_delta; intros ->; reflexivity. Qed.

(** The removal rule of the [Min] calculator, when it is asked with
    [deleted=True]. *)
Lemma min_removal_rule (i : instance) (arg : string) (p : parent) (m v : Z) :
  aggregate_of self = Min arg ->
  getattr_field i arg = Ok (Concrete v) ->
  getattr_related i (foreign_key self) = Ok (Some p) ->
  getattr_parent (Some p) (field self) = Ok (Some m) ->
  (m < v -> _get_delta self i (Some true) = Ok 0) /\
  (v <= m -> full_recompute (_get_delta self i (Some true))).
Proof.
  intros Hk Hv Hp Hm; unfold full_recompute, _get_delta.
  rewrite Hk, Hv; cbn [bind]; rewrite Hp; cbn [bind]; rewrite Hm; cbn [bind].
  split; intro H.
  - apply Z.ltb_lt in H; rewrite H; reflexivity.
  - apply Z.ltb_ge in H; rewrite H; reflexivity.
Qed.

(** The addition rule of the [Min] calculator ([deleted=False]). *)
Lemma min_addition_rule (i : instance) (arg : string) (p : parent)
    (m : option Z) (v : Z) :
  aggregate_of self = Min arg ->
  getattr_field i arg = Ok (Concrete v) ->
  getattr_related i (foreign_key self) = Ok (Some p) ->
  getattr_parent (Some p) (field self) = Ok m ->
  _get_delta self i (Some false) =
    Ok (match m with None => v | Some m' => Z.min m' v - m' end).
Proof.
  intros Hk Hv Hp Hm; unfold _get_delta.
  rewrite Hk, Hv; cbn [bind]; rewrite Hp; cbn [bind]; rewrite Hm; cbn [bind].
  destruct m; reflexivity.
Qed.

(** [track_changes] asks the calculator with the default
    [deleted=False] whatever the event is: a failure of that call is
    the failure of the event. *)
Lemma track_changes_delta_raises (i : instance) (created deleted : bool)
    (e : exn) :
  getattr_related i (foreign_key self) <> Raise (AttributeError (foreign_key self)) ->
  _get_delta self i (Some false) = Raise e ->
  track_changes self i created deleted = Raise e.
Proof.
  intros Hfk Hd; unfold track_changes.
  unfold getattr_related in *.
  destruct (assoc (foreign_key self) (relations i)) as [[fo|]|];
    cbn [bind]; try (rewrite Hd; reflexivity).
  congruence.
Qed.

(** An update that keeps the parent and the membership reaches the last
    branch, which reads the unbound name. *)
Lemma update_in_place_raises (i old : instance) (fo ofo : option parent)
    (d : Z) :
  previous_version i = Some old ->
  getattr_related i (foreign_key self) = Ok fo ->
  getattr_related old (foreign_key self) = Ok ofo ->
  _get_delta self i (Some false) = Ok d ->
  parent_eqb fo ofo = true ->
  callback self i = callback self old ->
  track_changes self i false false = Raise (NameError "old_delta").
Proof.
  intros Hprev Hfo Hofo Hd Heq Hcb; unfold track_changes, getattr_previous.
  rewrite Hfo, Hprev; cbn [bind]; rewrite Hd; cbn [bind].
  rewrite Hofo; cbn [bind]; rewrite Heq, Hcb, Z.sub_diag; reflexivity.
Qed.

(** An update that changes the parent of a child that qualified before
    reads the unbound name as well. *)
Lemma update_reparent_raises (i old : instance) (fo ofo : option parent)
    (d : Z) :
  previous_version i = Some old ->
  getattr_related i (foreign_key self) = Ok fo ->
  getattr_related old (foreign_key self) = Ok ofo ->
  _get_delta self i (Some false) = Ok d ->
  parent_eqb fo ofo = false ->
  callback self old = true ->
  track_changes self i false false = Raise (NameError "old_delta").
Proof.
  intros Hprev Hfo Hofo Hd Hne Hold; unfold track_changes, getattr_previous.
  rewrite Hfo, Hprev; cbn [bind]; rewrite Hd; cbn [bind].
  rewrite Hofo; cbn [bind]; rewrite Hne, Hold; reflexivity.
Qed.

Lemma update_value_nonzero (fo : option parent) (delta sign : Z) (e : entry) :
  sign <> 0 ->
  _update_value self fo delta sign = Some e ->
  fo = Some (fst e) /\ upd_increment (snd e) <> 0 /\
  upd_increment (snd e) = delta * sign.
Proof.
  unfold _update_value; intros Hs H.
  destruct fo as [p|]; [|discriminate].
  destruct (delta =? 0) eqn:Hz; [discriminate|].
  injection H as <-; cbn; apply Z.eqb_neq in Hz.
  repeat split; nia.
Qed.

Lemma b2z_sub_nonzero (a b : bool) :
  (b2z a - b2z b =? 0) = false -> b2z a - b2z b <> 0.
Proof. apply Z.eqb_neq. Qed.

(** No-op suppression inside every plan that is returned: an entry
    always carries a parent and a nonzero increment. *)
Lemma plan_entries_nonzero (i : instance) (created deleted : bool)
    (plan : list (option entry)) (e : entry) :
  track_changes self i created deleted = Ok plan ->
  In (Some e) plan -> upd_increment (snd e) <> 0.
Proof.
  unfold track_changes.
  destruct (match getattr_related i (foreign_key self) with
            | Raise ObjectDoesNotExist => Ok None
            | r => r end) as [fo|err]; cbn [bind]; [|discriminate].
  destruct (_get_delta self i (Some false)) as [d|err]; cbn [bind];
    [|discriminate].
  assert (Hone : forall s, s <> 0 ->
            In (Some e) [_update_value self fo d s] ->
            upd_increment (snd e) <> 0).
  { intros s Hs [H|[]]. now apply (update_value_nonzero fo d s e Hs). }
  destruct created.
  { destruct (callback self i); intros [= <-] Hin;
      [apply (Hone 1); [lia|exact Hin] | destruct Hin]. }
  destruct deleted.
  { destruct (callback self i); intros [= <-] Hin;
      [apply (Hone (-1)); [lia|exact Hin] | destruct Hin]. }
  destruct (getattr_previous i) as [old|err]; cbn [bind]; [|discriminate].
  destruct (getattr_related old (foreign_key self)) as [ofo|err];
    cbn [bind]; [|discriminate].
  destruct (parent_eqb fo ofo); cbn [andb negb].
  - destruct (b2z (callback self i) - b2z (callback self old) =? 0) eqn:Hs;
      cbn [negb bind old_delta]; [discriminate|].
    intros H%Ok_inj Hin; subst plan. apply filter_In in Hin as [Hin _].
    apply (Hone _ (b2z_sub_nonzero _ _ Hs) Hin).
  - destruct (callback self old); cbn [bind old_delta]; [discriminate|].
    destruct (callback self i); cbn [app]; intros H%Ok_inj Hin; subst plan;
      apply filter_In in Hin as [Hin _];
      [apply (Hone 1); [lia|exact Hin] | destruct Hin].
Qed.

End Facts.

(** ** Create and delete events of [Count] and [Sum] keep the stored
    field equal to the ground truth *)

Section CountSum.

Variable self : DenormalizedTracker.

Lemma sumZ_app (l1 l2 : list Z) : sumZ (l1 ++ l2) = sumZ l1 + sumZ l2.
Proof. induction l1 as [|x l1 IH]; cbn; [reflexivity|]. fold (sumZ (l1 ++ l2)) (sumZ l1). lia. Qed.

Lemma ground_truth_insert (l1 l2 : list instance) (c : instance) (q : Z) :
  additive self ->
  ground_truth self (l1 ++ c :: l2) q =
    if qualifies self q c
    then F_add (ground_truth self (l1 ++ l2) q) (contribution self c)
    else ground_truth self (l1 ++ l2) q.
Proof.
  intros Hadd; unfold ground_truth, contribution.
  rewrite !filter_app; cbn [filter].
  destruct (qualifies self q c); [|reflexivity].
  destruct Hadd as [-> | [arg ->]]; cbn [F_add]; f_equal.
  - rewrite !length_app; cbn [List.length]; lia.
  - rewrite !map_app, !sumZ_app; cbn [map sumZ fold_right].
    fold (sumZ (map (operand arg) (filter (qualifies self q) l2))); lia.
Qed.

Lemma refresh_then_read (name : string) (l : list (string * field_value))
    (z : Z) :
  assoc name l = Some (Combined z) ->
  assoc name (refresh_attrs name l) = Some (Concrete z).
Proof.
  induction l as [|[k v] l IH]; cbn; [discriminate|].
  destruct (String.eqb k name) eqn:Hk; cbn; rewrite Hk.
  - intros [= ->]; reflexivity.
  - exact IH.
Qed.

(** The delta of a [Sum]: the operand, read back from the database when
    it is an unevaluated expression. *)
Lemma sum_delta (i : instance) (arg : string) (deleted : option bool) :
  aggregate_of self = Sum arg ->
  _get_delta self i deleted =
    match assoc arg (attrs i) with
    | Some (Concrete z) => Ok z
    | Some (Combined z) =>
        if in_database i then Ok z else Raise ObjectDoesNotExist
    | None => Raise (AttributeError arg)
    end.
Proof.
  intros Hk; unfold _get_delta, getattr_field, refresh_from_db; rewrite Hk.
  destruct (assoc arg (attrs i)) as [[z|z]|] eqn:Ha; cbn [bind];
    try reflexivity.
  destruct (in_database i); cbn [bind attrs]; [|reflexivity].
  rewrite (refresh_then_read arg (attrs i) z Ha); reflexivity.
Qed.

(** On a child whose operand can be read the calculator returns the
    child's contribution. *)
Lemma get_delta_contribution (c : instance) :
  additive self ->
  readable self c ->
  _get_delta self c (Some false) = Ok (contribution self c).
Proof.
  intros Hadd Hread; unfold contribution.
  destruct Hadd as [Hc | [arg Hs]];
    [unfold _get_delta; rewrite Hc; reflexivity|].
  specialize (Hread arg Hs); unfold operand_readable in Hread.
  rewrite (sum_delta c arg (Some false) Hs), Hs.
  unfold operand, getattr_field.
  destruct (assoc arg (attrs c)) as [[z|z]|]; try discriminate;
    [reflexivity|rewrite Hread; reflexivity].
Qed.

(** Whenever the calculator returns, it returns the child's
    contribution. *)
Lemma get_delta_ok_contribution (c : instance) (d : Z) :
  additive self ->
  _get_delta self c (Some false) = Ok d ->
  d = contribution self c.
Proof.
  intros Hadd; unfold contribution.
  destruct Hadd as [Hc | [arg Hs]].
  - unfold _get_delta; rewrite Hc; intros H%Ok_inj; auto.
  - rewrite (sum_delta c arg (Some false) Hs), Hs.
    unfold operand, getattr_field.
    destruct (assoc arg (attrs c)) as [[z|z]|]; try discriminate.
    + intros H%Ok_inj; auto.
    + destruct (in_database c); [intros H%Ok_inj; auto | discriminate].
Qed.

Lemma qualifies_spec (c : instance) (fo : option parent) (q : Z) :
  getattr_related c (foreign_key self) = Ok fo ->
  qualifies self q c =
    evaluate self c &&
    match fo with Some p => pk p =? q | None => false end.
Proof. unfold qualifies; intros ->; reflexivity. Qed.

(** Applying the single entry of a create ([sign] 1) or delete
    ([sign] -1) event. *)
Lemma apply_single (fo : option parent) (d sign : Z) (st : store) (q : Z) :
  apply_plan [_update_value self fo d sign] st q =
    if match fo with Some p => pk p =? q | None => false end
    then F_add (st q) (d * sign) else st q.
Proof.
  unfold apply_plan, _update_value; cbn [fold_left].
  destruct fo as [p|]; [|reflexivity].
  rewrite (Z.eqb_sym (pk p) q).
  destruct (d =? 0) eqn:Hd.
  - apply Z.eqb_eq in Hd; subst d; cbn [Z.mul].
    destruct (q =? pk p); [|reflexivity].
    destruct (st q); cbn; [f_equal; lia|reflexivity].
  - unfold apply_entry; cbn [fst snd pk upd_increment]; reflexivity.
Qed.

Lemma track_changes_create_delete (c : instance) (fo : option parent)
    (created deleted : bool) :
  additive self ->
  readable self c ->
  getattr_related c (foreign_key self) = Ok fo ->
  created || deleted = true ->
  track_changes self c created deleted =
    Ok (if callback self c
        then [_update_value self fo (contribution self c)
                (if created then 1 else -1)]
        else []).
Proof.
  intros Hadd Hread Hfo Hev; unfold track_changes.
  rewrite Hfo; cbn [bind].
  rewrite (get_delta_contribution c Hadd Hread); cbn [bind].
  destruct created; [destruct (callback self c); reflexivity|].
  destruct deleted; [destruct (callback self c); reflexivity|discriminate].
Qed.

(** A create event of a child on which the tracker's membership function
    agrees with the membership of the spec: the plan applied to a store
    that agrees with the ground truth over [children] agrees with it
    over the children with the new child. *)
Lemma create_preserves_truth (children : list instance) (c : instance)
    (fo : option parent) (st : store) :
  additive self ->
  readable self c ->
  evaluate self c = callback self c ->
  getattr_related c (foreign_key self) = Ok fo ->
  (forall q, st q = ground_truth self children q) ->
  exists plan,
    track_changes self c true false = Ok plan /\
    forall q, apply_plan plan st q = ground_truth self (c :: children) q.
Proof.
  intros Hadd Hread Hmem Hfo Hinv.
  eexists; split;
    [apply (track_changes_create_delete c fo true false Hadd Hread Hfo);
     reflexivity|].
  intros q.
  change (c :: children) with ([] ++ c :: children).
  rewrite (ground_truth_insert [] children c q Hadd); cbn [app].
  rewrite (qualifies_spec c fo q Hfo), <- Hinv, Hmem.
  destruct (callback self c); cbn [andb]; [|reflexivity].
  rewrite apply_single, Z.mul_1_r; reflexivity.
Qed.

(** A delete event: the same for the removal of the child from the
    children. *)
Lemma delete_preserves_truth (before after : list instance) (c : instance)
    (fo : option parent) (st : store) :
  additive self ->
  readable self c ->
  evaluate self c = callback self c ->
  getattr_related c (foreign_key self) = Ok fo ->
  (forall q, st q = ground_truth self (before ++ c :: after) q) ->
  exists plan,
    track_changes self c false true = Ok plan /\
    forall q, apply_plan plan st q = ground_truth self (before ++ after) q.
Proof.
  intros Hadd Hread Hmem Hfo Hinv.
  eexists; split;
    [apply (track_changes_create_delete c fo false true Hadd Hread Hfo);
     reflexivity|].
  intros q.
  assert (Hq := Hinv q).
  rewrite (ground_truth_insert before after c q Hadd) in Hq.
  rewrite (qualifies_spec c fo q Hfo), Hmem in Hq.
  destruct (callback self c); cbn [andb] in Hq; [|exact Hq].
  rewrite apply_single.
  destruct (match fo with Some p => pk p =? q | None => false end);
    [|exact Hq].
  rewrite Hq.
  destruct (ground_truth self (before ++ after) q); cbn [F_add];
    [f_equal; lia|reflexivity].
Qed.

End CountSum.

(** ** An unresolvable parent *)

Section Unresolved.

Variable self : DenormalizedTracker.

(** For [Count] and [Sum], a create or delete event of a child whose
    parent raises [ObjectDoesNotExist] returns a plan without entries. *)
Lemma unresolved_parent_suppressed (c : instance) (created deleted : bool) :
  additive self ->
  readable self c ->
  getattr_related c (foreign_key self) = Raise ObjectDoesNotExist ->
  created || deleted = true ->
  track_changes self c created deleted =
    Ok (if callback self c then [None] else []).
Proof.
  intros Hadd Hread Hfo Hev; unfold track_changes.
  rewrite Hfo; cbn [bind].
  rewrite (get_delta_contribution self c Hadd Hread); cbn [bind].
  unfold _update_value.
  destruct created; [destruct (callback self c); reflexivity|].
  destruct deleted; [destruct (callback self c); reflexivity|discriminate].
Qed.

(** For [Min] the calculator resolves the parent a second time, outside
    the guard of [track_changes]. *)
Lemma min_unresolved_parent_raises (c : instance) (arg : string)
    (v : field_value) (created deleted : bool) :
  aggregate_of self = Min arg ->
  getattr_field c arg = Ok v ->
  getattr_related c (foreign_key self) = Raise ObjectDoesNotExist ->
  track_changes self c created deleted = Raise ObjectDoesNotExist.
Proof.
  intros Hk Hv Hfo; unfold track_changes, _get_delta.
  rewrite Hfo, Hk, Hv; reflexivity.
Qed.

End Unresolved.

(** ** The properties of the specification *)

Import Scenario.

(** C1 (the stored field equals the ground truth after every applied
    plan) fails for [Min]: with children of operands 3, 5 and 7 under one
    parent whose stored minimum is the true minimum 3, the plan of the
    deletion of the operand-3 child has no entry, so the stored minimum
    stays 3 while the minimum over the remaining children is 5. *)
Theorem C1_min_delete_leaves_stale_minimum :
  (forall q, stored q = ground_truth min_tracker [c3; c5; c7] q) /\
  track_changes min_tracker c3 false true = Ok [None] /\
  apply_plan [None] stored 1 = Some 3 /\
  ground_truth min_tracker [c5; c7] 1 = Some 5.
Proof.
  repeat split.
  intros q; unfold stored, ground_truth, qualifies.
  destruct q as [|[r|r|]|r]; reflexivity.
Qed.

(** C2 (deleting the child that holds the stored minimum yields a full
    recompute) fails in [track_changes]: the calculator is asked with
    [deleted=False], so the deletion of the operand-3 child under stored
    minimum 3 returns a plan without entry and without recompute, though
    the calculator asked with [deleted=True] requests the recompute; the
    deletion of the operand-5 child yields delta 0 either way. *)
Theorem C2_min_delete_holder_no_recompute :
  track_changes min_tracker c3 false true = Ok [None] /\
  ~ full_recompute (track_changes min_tracker c3 false true) /\
  full_recompute (_get_delta min_tracker c3 (Some true)) /\
  track_changes min_tracker c5 false true = Ok [None] /\
  _get_delta min_tracker c5 (Some true) = Ok 0.
Proof.
  repeat split; unfold full_recompute; cbn; discriminate.
Qed.

(** C3 (Sum scenario): the create of the amount-10 child yields the
    entry (P, +10) and the delete of the amount-25 child the entry
    (P, -25), but the update of the amount from 10 to 25 raises
    [NameError] instead of yielding (P, +15). *)
Theorem C3_sum_update_raises :
  track_changes sum_tracker child10 true false
    = Ok [Some (P, mk_updates "total" 10)] /\
  track_changes sum_tracker child25 false false
    = Raise (NameError "old_delta") /\
  track_changes sum_tracker child25 false true
    = Ok [Some (P, mk_updates "total" (-25))].
Proof. repeat split. Qed.

(** C4 (reparenting yields the two entries (A, -1), (B, +1)): the update
    of a qualifying [Count] child moved from A to B raises [NameError]
    and yields no plan. *)
Theorem C4_reparent_raises :
  parent_eqb (Some B) (Some A) = false /\
  callback count_tracker under_A = true /\
  callback count_tracker moved = true /\
  track_changes count_tracker moved false false
    = Raise (NameError "old_delta").
Proof. repeat split. Qed.

(** C5 (an update with equal before and after snapshots yields an empty
    plan): the update of a [Count] child saved with nothing changed
    raises [NameError] instead of returning the empty plan. *)
Theorem C5_noop_update_raises :
  attrs unchanged = attrs under_A /\
  relations unchanged = relations under_A /\
  track_changes count_tracker unchanged false false
    = Raise (NameError "old_delta").
Proof. repeat split. Qed.

(** C6 (an unresolvable parent never fails the event): for a [Min]
    tracker the create and the delete event of a child whose parent
    raises [ObjectDoesNotExist] raise that error. *)
Theorem C6_min_unresolved_parent_raises :
  getattr_related orphan (foreign_key min_tracker) = Raise ObjectDoesNotExist /\
  track_changes min_tracker orphan true false = Raise ObjectDoesNotExist /\
  track_changes min_tracker orphan false true = Raise ObjectDoesNotExist.
Proof. repeat split. Qed.

(** C7, as stated, fails: the update that changes the operand of the
    child holding the stored minimum 3 (from 3 to 5, same parent, same
    membership) requests no full recompute, and the calculator's case for
    a child that changed itself returns delta 0. *)
Lemma C7_own_change_no_recompute :
  aggregate_of min_tracker = Min "price" /\
  previous_version repriced = Some c3 /\
  getattr_related repriced "parent" = getattr_related c3 "parent" /\
  callback min_tracker repriced = callback min_tracker c3 /\
  getattr_parent (Some M3) "min_price" = Ok (Some 3) /\
  operand "price" c3 <= 3 /\
  ~ full_recompute (track_changes min_tracker repriced false false) /\
  _get_delta min_tracker repriced None = Ok 0.
Proof.
  repeat split; try (cbn; lia).
  unfold full_recompute; cbn; discriminate.
Qed.

(** C7, amended: for a [Min] aggregate whose operand, parent and stored
    minimum can be read, the calculator's case for a child that changed
    itself ([deleted=None]) returns delta 0 whatever the operand is, and
    the calculator requests a full recompute exactly in the removal case
    ([deleted=True]) with an operand [x <= M]. *)
Theorem C7_min_own_change_delta_zero (self : DenormalizedTracker)
    (i : instance) (arg : string) (p : parent) (m : option Z)
    (v : field_value) :
  aggregate_of self = Min arg ->
  getattr_field i arg = Ok v ->
  getattr_related i (foreign_key self) = Ok (Some p) ->
  getattr_parent (Some p) (field self) = Ok m ->
  _get_delta self i None = Ok 0 /\
  forall deleted,
    full_recompute (_get_delta self i deleted) <->
    deleted = Some true /\
    exists M x, m = Some M /\ v = Concrete x /\ x <= M.
Proof.
  intros Hk Hv Hp Hm; unfold full_recompute, _get_delta.
  rewrite Hk, Hv; cbn [bind]; rewrite Hp; cbn [bind]; rewrite Hm; cbn [bind].
  split; [reflexivity|].
  intros [[|]|]; unfold _get_full_aggregate.
  - destruct m as [M|], v as [x|x]; try (split; [discriminate|]).
    + destruct (M <? x) eqn:Hlt.
      * split; [discriminate|].
        intros [_ (M' & x' & [= <-] & [= <-] & Hle)].
        apply Z.ltb_lt in Hlt; lia.
      * split; [|reflexivity].
        intros _; split; [reflexivity|].
        exists M, x; apply Z.ltb_ge in Hlt; auto.
    + intros [_ (M' & x' & _ & Hx & _)]; discriminate.
    + intros [_ (M' & x' & HM & _)]; discriminate.
    + intros [_ (M' & x' & HM & _)]; discriminate.
  - split; [|intros [H _]; discriminate].
    destruct m as [M|], v as [x|x]; discriminate.
  - split; [discriminate|intros [H _]; discriminate].
Qed.

Lemma C7_min_own_change_delta_zero_witness :
  _get_delta min_tracker repriced None = Ok 0 /\
  forall deleted,
    full_recompute (_get_delta min_tracker repriced deleted) <->
    deleted = Some true /\
    exists M x, Some 3 = Some M /\ Concrete 5 = Concrete x /\ x <= M.
Proof.
  apply (C7_min_own_change_delta_zero min_tracker repriced "price" M3
           (Some 3) (Concrete 5)); reflexivity.
Defined.




(** C9: for a [Count] aggregate and a qualifying child whose parent
    resolves, the create event yields the entry of increment +1 and the
    delete event the entry of increment -1 on that parent, and applying
    the second plan after the first leaves every parent's stored field
    as it was before the create. *)
Theorem C9_count_create_delete_symmetry (self : DenormalizedTracker)
    (i : instance) (p : parent) (st : store) :
  aggregate_of self = Count ->
  is_suitable self i = true ->
  getattr_related i (foreign_key self) = Ok (Some p) ->
  exists created_plan deleted_plan,
    track_changes self i true false = Ok created_plan /\
    track_changes self i false true = Ok deleted_plan /\
    created_plan = [Some (p, mk_updates (field self) 1)] /\
    deleted_plan = [Some (p, mk_updates (field self) (-1))] /\
    forall q, apply_plan deleted_plan (apply_plan created_plan st) q = st q.
Proof.
  intros Hk Hs Hp; unfold is_suitable in Hs.
  exists [Some (p, mk_updates (field self) 1)],
         [Some (p, mk_updates (field self) (-1))].
  unfold track_changes; rewrite Hp; cbn [bind].
  rewrite (get_delta_count self i (Some false) Hk), Hs; cbn [bind].
  repeat split.
  intros q; unfold apply_plan, apply_entry; cbn.
  destruct (q =? pk p); [|reflexivity].
  destruct (st q); cbn; [f_equal; lia|reflexivity].
Qed.

Lemma C9_count_create_delete_symmetry_witness :
  exists created_plan deleted_plan,
    track_changes count_tracker under_A true false = Ok created_plan /\
    track_changes count_tracker under_A false true = Ok deleted_plan /\
    created_plan = [Some (A, mk_updates "n" 1)] /\
    deleted_plan = [Some (A, mk_updates "n" (-1))] /\
    forall q, apply_plan deleted_plan
                (apply_plan created_plan (fun _ => Some 1)) q
              = (fun _ : Z => Some 1) q.
Proof.
  apply (C9_count_create_delete_symmetry count_tracker under_A A
           (fun _ => Some 1)); reflexivity.
Defined.

(** C10, as stated, fails: for a [Min] tracker, the update event of an
    instance that lacks the previous version and whose parent raises
    [ObjectDoesNotExist] raises that error, not [AttributeError]; with an
    aggregate the calculator does not know it raises
    [NotImplementedError]. *)
Lemma C10_other_error_first :
  previous_version orphan = None /\
  track_changes min_tracker orphan false false = Raise ObjectDoesNotExist /\
  track_changes (__init__ "n" (Some OtherAggregate) None None "parent")
    under_A false false = Raise NotImplementedError.
Proof. repeat split. Qed.

(** C10, amended: for every update event of an instance that lacks the
    previous version the call raises and returns no plan.  The error is,
    in the order of evaluation: the [AttributeError] of the foreign key
    lookup on the instance, when that attribute is missing; otherwise the
    error of the delta calculation on the instance, when it raises;
    otherwise the [AttributeError] for [_denormalized_previous_version]. *)
Theorem C10_update_requires_previous_version (self : DenormalizedTracker)
    (i : instance) :
  previous_version i = None ->
  (exists e, track_changes self i false false = Raise e) /\
  track_changes self i false false =
    match getattr_related i (foreign_key self) with
    | Raise (AttributeError name) => Raise (AttributeError name)
    | _ =>
        match _get_delta self i (Some false) with
        | Raise e => Raise e
        | Ok _ => Raise (AttributeError PREVIOUS_VERSION_FIELD)
        end
    end.
Proof.
  intros Hprev; unfold track_changes, getattr_previous, getattr_related.
  rewrite Hprev.
  destruct (assoc (foreign_key self) (relations i)) as [[fo|]|]; cbn [bind];
    destruct (_get_delta self i (Some false)) as [d|e]; cbn [bind];
    split; eauto.
Qed.

Lemma C10_update_requires_previous_version_witness :
  (exists e, track_changes count_tracker under_A false false = Raise e) /\
  track_changes count_tracker under_A false false =
    match getattr_related under_A (foreign_key count_tracker) with
    | Raise (AttributeError name) => Raise (AttributeError name)
    | _ =>
        match _get_delta count_tracker under_A (Some false) with
        | Raise e => Raise e
        | Ok _ => Raise (AttributeError PREVIOUS_VERSION_FIELD)
        end
    end.
Proof.
  apply (C10_update_requires_previous_version count_tracker under_A).
  reflexivity.
Defined.

(** ** Further properties of the tracker *)

Import Cases.

Section Plans.

Variable self : DenormalizedTracker.

Lemma update_value_some (fo : option parent) (d s : Z) (e : entry) :
  _update_value self fo d s = Some e ->
  fo = Some (fst e) /\ d <> 0 /\ snd e = mk_updates (field self) (d * s).
Proof.
  unfold _update_value; destruct fo as [p|]; [|discriminate].
  destruct (d =? 0) eqn:Hd; [discriminate|].
  intros [= <-]; apply Z.eqb_neq in Hd; auto.
Qed.

Lemma b2z_sub_sign (a b : bool) :
  (b2z a - b2z b =? 0) = false ->
  b2z a - b2z b = 1 \/ b2z a - b2z b = -1.
Proof. destruct a, b; cbn; intros H; try discriminate; auto. Qed.

(** Where an entry of a returned plan comes from: its parent is what the
    foreign key of the instance itself resolves to, and its increment is
    plus or minus the delta of the instance itself. *)
Lemma plan_entry_origin (i : instance) (created deleted : bool)
    (plan : list (option entry)) (e : entry) :
  track_changes self i created deleted = Ok plan ->
  In (Some e) plan ->
  exists d s,
    (s = 1 \/ s = -1) /\
    _get_delta self i (Some false) = Ok d /\ d <> 0 /\
    getattr_related i (foreign_key self) = Ok (Some (fst e)) /\
    snd e = mk_updates (field self) (d * s).
Proof.
  unfold track_changes.
  remember (match getattr_related i (foreign_key self) with
            | Raise ObjectDoesNotExist => Ok None
            | r => r end) as r eqn:Hr.
  assert (Hfo : forall fo p, r = Ok fo -> fo = Some p ->
                getattr_related i (foreign_key self) = Ok (Some p)).
  { subst r; intros fo p.
    destruct (getattr_related i (foreign_key self)) as [fo'|[]];
      intros H; try discriminate H; apply Ok_inj in H; subst fo;
      intros H; try discriminate H; subst; reflexivity. }
  destruct r as [fo|err]; cbn [bind]; [|discriminate].
  specialize (Hfo fo); clear Hr.
  destruct (_get_delta self i (Some false)) as [d|err]; cbn [bind];
    [|discriminate].
  assert (Hone : forall s, s = 1 \/ s = -1 ->
            In (Some e) [_update_value self fo d s] ->
            exists d' s', (s' = 1 \/ s' = -1) /\ Ok d = Ok d' /\ d' <> 0 /\
              getattr_related i (foreign_key self) = Ok (Some (fst e)) /\
              snd e = mk_updates (field self) (d' * s')).
  { intros s Hs [H|[]].
    destruct (update_value_some fo d s e H) as (Hp & Hd & He).
    exists d, s; repeat split; auto. }
  destruct created.
  { destruct (callback self i); intros H%Ok_inj Hin; subst plan;
      [apply (Hone 1); auto | destruct Hin]. }
  destruct deleted.
  { destruct (callback self i); intros H%Ok_inj Hin; subst plan;
      [apply (Hone (-1)); auto | destruct Hin]. }
  destruct (getattr_previous i) as [old|err]; cbn [bind]; [|discriminate].
  destruct (getattr_related old (foreign_key self)) as [ofo|err];
    cbn [bind]; [|discriminate].
  destruct (parent_eqb fo ofo); cbn [andb negb].
  - destruct (b2z (callback self i) - b2z (callback self old) =? 0) eqn:Hs;
      cbn [negb bind old_delta]; [discriminate|].
    intros H%Ok_inj Hin; subst plan. apply filter_In in Hin as [Hin _].
    apply (Hone _ (b2z_sub_sign _ _ Hs) Hin).
  - destruct (callback self old); cbn [bind old_delta]; [discriminate|].
    destruct (callback self i); cbn [app]; intros H%Ok_inj Hin; subst plan;
      apply filter_In in Hin as [Hin _];
      [apply (Hone 1); auto | destruct Hin].
Qed.

Lemma filter_single_length {A : Type} (f : A -> bool) (x : A) :
  (List.length (filter f [x]) <= 1)%nat.
Proof. cbn; destruct (f x); cbn; lia. Qed.

End Plans.

(** X1: every entry of every plan [track_changes] returns, whatever the
    event, targets the parent the instance itself refers to (never the
    parent of the previous version), updates the tracker's own field,
    and carries a nonzero increment that is plus or minus the delta of
    the instance itself. *)
Theorem X1_entries_target_current_parent (self : DenormalizedTracker)
    (i : instance) (created deleted : bool) (plan : list (option entry))
    (e : entry) :
  track_changes self i created deleted = Ok plan ->
  In (Some e) plan ->
  getattr_related i (foreign_key self) = Ok (Some (fst e)) /\
  upd_field (snd e) = field self /\
  upd_increment (snd e) <> 0 /\
  exists d, _get_delta self i (Some false) = Ok d /\
            (upd_increment (snd e) = d \/ upd_increment (snd e) = - d).
Proof.
  intros Hplan Hin.
  destruct (plan_entry_origin self i created deleted plan e Hplan Hin)
    as (d & s & Hs & Hd & Hnz & Hp & He).
  rewrite He; cbn [upd_field upd_increment].
  repeat split; auto.
  - destruct Hs; subst s; lia.
  - exists d; split; [exact Hd|]. destruct Hs; subst s; lia.
Qed.

Lemma X1_entries_target_current_parent_witness :
  getattr_related child10 (foreign_key sum_tracker)
    = Ok (Some (fst (P, mk_updates "total" 10))) /\
  upd_field (snd (P, mk_updates "total" 10)) = field sum_tracker /\
  upd_increment (snd (P, mk_updates "total" 10)) <> 0 /\
  exists d, _get_delta sum_tracker child10 (Some false) = Ok d /\
            (upd_increment (snd (P, mk_updates "total" 10)) = d \/
             upd_increment (snd (P, mk_updates "total" 10)) = - d).
Proof.
  apply (X1_entries_target_current_parent sum_tracker child10 true false
           [Some (P, mk_updates "total" 10)] (P, mk_updates "total" 10)).
  - reflexivity.
  - left; reflexivity.
Defined.

(** X2: a plan [track_changes] returns never has more than one element,
    so no event yields two entries; the plan of an update event holds
    entries only, without the [None] a create or delete plan can hold. *)
Theorem X2_plans_have_at_most_one_element (self : DenormalizedTracker)
    (i : instance) (created deleted : bool) (plan : list (option entry)) :
  track_changes self i created deleted = Ok plan ->
  (List.length plan <= 1)%nat /\
  (created = false -> deleted = false ->
   forall o, In o plan -> is_entry o = true).
Proof.
  unfold track_changes.
  destruct (match getattr_related i (foreign_key self) with
            | Raise ObjectDoesNotExist => Ok None
            | r => r end) as [fo|err]; cbn [bind]; [|discriminate].
  destruct (_get_delta self i (Some false)) as [d|err]; cbn [bind];
    [|discriminate].
  destruct created.
  { destruct (callback self i); intros H%Ok_inj; subst plan;
      (split; [cbn; lia | discriminate]). }
  destruct deleted.
  { destruct (callback self i); intros H%Ok_inj; subst plan;
      (split; [cbn; lia | discriminate]). }
  destruct (getattr_previous i) as [old|err]; cbn [bind]; [|discriminate].
  destruct (getattr_related old (foreign_key self)) as [ofo|err];
    cbn [bind]; [|discriminate].
  assert (Hfilter : forall l o, In o (filter is_entry l) -> is_entry o = true).
  { intros l o Hin; apply filter_In in Hin as [_ H]; exact H. }
  destruct (parent_eqb fo ofo); cbn [andb negb].
  - destruct (b2z (callback self i) - b2z (callback self old) =? 0);
      cbn [negb bind old_delta]; [discriminate|].
    intros H%Ok_inj; subst plan; split;
      [apply filter_single_length | intros _ _; apply Hfilter].
  - destruct (callback self old); cbn [bind old_delta]; [discriminate|].
    destruct (callback self i); cbn [app]; intros H%Ok_inj; subst plan;
      (split; [|intros _ _; apply Hfilter]).
    + apply filter_single_length.
    + cbn; lia.
Qed.

Lemma X2_plans_have_at_most_one_element_witness :
  (List.length [Some (A, mk_updates "n" 1)] <= 1)%nat /\
  (false = false -> false = false ->
   forall o, In o [Some (A, mk_updates "n" 1)] -> is_entry o = true).
Proof.
  apply (X2_plans_have_at_most_one_element active_tracker activated
           false false).
  reflexivity.
Defined.

(** X3: an update event whose instance and previous version resolve
    their parents returns a plan exactly when the parent is unchanged and
    the membership flipped, or the parent changed and the previous
    version did not qualify; every other update (parent and membership
    unchanged, or parent changed for a child that qualified before)
    raises [NameError]. *)
Theorem X3_update_returns_or_name_error (self : DenormalizedTracker)
    (i old : instance) (fo ofo : option parent) (d : Z) :
  previous_version i = Some old ->
  getattr_related i (foreign_key self) = Ok fo ->
  getattr_related old (foreign_key self) = Ok ofo ->
  _get_delta self i (Some false) = Ok d ->
  let returns :=
    (parent_eqb fo ofo = true /\ callback self i <> callback self old) \/
    (parent_eqb fo ofo = false /\ callback self old = false) in
  (returns -> exists plan, track_changes self i false false = Ok plan) /\
  (~ returns ->
   track_changes self i false false = Raise (NameError "old_delta")).
Proof.
  intros Hprev Hfo Hofo Hd returns; subst returns.
  unfold track_changes, getattr_previous.
  rewrite Hfo, Hprev; cbn [bind]; rewrite Hd; cbn [bind].
  rewrite Hofo; cbn [bind].
  destruct (parent_eqb fo ofo); cbn [andb negb];
    destruct (callback self i), (callback self old);
    cbn [b2z Z.sub Z.add Z.opp Z.eqb negb bind old_delta app];
    split; intros H; eauto;
    try (exfalso; apply H; auto; fail);
    try (exfalso; apply H; left; split; [reflexivity|discriminate]);
    destruct H as [[H1 H2]|[H1 H2]]; try discriminate; congruence.
Qed.

Lemma X3_update_returns_or_name_error_witness :
  let returns :=
    (parent_eqb (Some A) (Some A) = true /\
     callback active_tracker activated <> callback active_tracker idle) \/
    (parent_eqb (Some A) (Some A) = false /\
     callback active_tracker idle = false) in
  (returns ->
   exists plan, track_changes active_tracker activated false false = Ok plan) /\
  (~ returns ->
   track_changes active_tracker activated false false
   = Raise (NameError "old_delta")).
Proof.
  apply (X3_update_returns_or_name_error active_tracker activated idle
           (Some A) (Some A) 1); reflexivity.
Defined.

(** X4: for an update whose instance and previous version resolve to
    the same parent, whose delta is calculated, and whose membership
    flipped: the plan is empty when the delta is 0 or the child has no
    parent, and otherwise holds exactly one entry on that parent, plus
    the delta when the child starts to qualify and minus the delta when
    it stops.  The delta is the one of the instance as it is after the
    change, also when the child stops qualifying. *)
Theorem X4_membership_flip_uses_new_delta (self : DenormalizedTracker)
    (i old : instance) (fo ofo : option parent) (d : Z) :
  previous_version i = Some old ->
  getattr_related i (foreign_key self) = Ok fo ->
  getattr_related old (foreign_key self) = Ok ofo ->
  parent_eqb fo ofo = true ->
  _get_delta self i (Some false) = Ok d ->
  callback self i <> callback self old ->
  track_changes self i false false =
    Ok (match fo with
        | Some p =>
            if d =? 0 then []
            else [Some (p, mk_updates (field self)
                             (if callback self i then d else - d))]
        | None => []
        end).
Proof.
  intros Hprev Hfo Hofo Heq Hd Hflip.
  unfold track_changes, getattr_previous.
  rewrite Hfo, Hprev; cbn [bind]; rewrite Hd; cbn [bind].
  rewrite Hofo; cbn [bind]; rewrite Heq; cbn [andb].
  unfold _update_value.
  destruct (callback self i), (callback self old); try congruence;
    cbn [b2z Z.sub Z.add Z.opp Z.eqb negb bind];
    destruct fo as [p|]; try reflexivity;
    destruct (d =? 0); cbn [filter is_entry]; try reflexivity;
    repeat f_equal; lia.
Qed.

Lemma X4_membership_flip_uses_new_delta_witness :
  track_changes active_sum_tracker retired false false =
    Ok (match Some A with
        | Some p =>
            if 25 =? 0 then []
            else [Some (p, mk_updates (field active_sum_tracker)
                             (if callback active_sum_tracker retired
                              then 25 else - 25))]
        | None => []
        end).
Proof.
  apply (X4_membership_flip_uses_new_delta active_sum_tracker retired busy
           (Some A) (Some A) 25); try reflexivity; discriminate.
Defined.

(** X5: an update that changes the parent of a child that did not
    qualify before is handled as the creation of the child under its new
    parent: its plan holds the entries of the plan of the create event of
    the same instance, and nothing for the old parent. *)
Theorem X5_reparent_unqualified_as_create (self : DenormalizedTracker)
    (i old : instance) (fo ofo : option parent) (d : Z) :
  previous_version i = Some old ->
  getattr_related i (foreign_key self) = Ok fo ->
  getattr_related old (foreign_key self) = Ok ofo ->
  parent_eqb fo ofo = false ->
  _get_delta self i (Some false) = Ok d ->
  callback self old = false ->
  exists created_plan,
    track_changes self i true false = Ok created_plan /\
    track_changes self i false false = Ok (filter is_entry created_plan).
Proof.
  intros Hprev Hfo Hofo Hne Hd Hold.
  unfold track_changes, getattr_previous.
  rewrite Hfo, Hprev; cbn [bind]; rewrite Hd; cbn [bind].
  rewrite Hofo; cbn [bind]; rewrite Hne, Hold; cbn [andb negb bind app].
  destruct (callback self i); eexists; split; reflexivity.
Qed.

Lemma X5_reparent_unqualified_as_create_witness :
  exists created_plan,
    track_changes active_tracker adopted true false = Ok created_plan /\
    track_changes active_tracker adopted false false
    = Ok (filter is_entry created_plan).
Proof.
  apply (X5_reparent_unqualified_as_create active_tracker adopted idle
           (Some B) (Some A) 1); reflexivity.
Defined.

(** X6: only the parent of the instance itself is resolved under the
    guard: when the parent of the previous version cannot be resolved,
    the update event raises that error ([ObjectDoesNotExist] included). *)
Theorem X6_previous_parent_unguarded (self : DenormalizedTracker)
    (i old : instance) (fo : option parent) (d : Z) (e : exn) :
  previous_version i = Some old ->
  getattr_related i (foreign_key self) = Ok fo ->
  _get_delta self i (Some false) = Ok d ->
  getattr_related old (foreign_key self) = Raise e ->
  track_changes self i false false = Raise e.
Proof.
  intros Hprev Hfo Hd Hold; unfold track_changes, getattr_previous.
  rewrite Hfo, Hprev; cbn [bind]; rewrite Hd; cbn [bind].
  rewrite Hold; reflexivity.
Qed.

Lemma X6_previous_parent_unguarded_witness :
  track_changes active_tracker found false false = Raise ObjectDoesNotExist.
Proof.
  apply (X6_previous_parent_unguarded active_tracker found lost (Some A) 1);
    reflexivity.
Defined.

(** X7: for a [Min] aggregate, every event of a child whose foreign key
    is NULL raises [AttributeError]: for the operand when the child
    lacks that field, which is read first, and otherwise for the tracked
    field, which the calculator reads from the absent parent. *)
Theorem X7_min_without_parent_raises (self : DenormalizedTracker)
    (i : instance) (arg : string) (created deleted : bool) :
  aggregate_of self = Min arg ->
  getattr_related i (foreign_key self) = Ok None ->
  track_changes self i created deleted =
    Raise (AttributeError
             (match assoc arg (attrs i) with
              | Some _ => field self
              | None => arg
              end)).
Proof.
  intros Hk Hfo; unfold track_changes, _get_delta, getattr_field.
  rewrite Hfo, Hk; cbn [bind].
  destruct (assoc arg (attrs i)); reflexivity.
Qed.

Lemma X7_min_without_parent_raises_witness :
  track_changes min_tracker parentless false true =
    Raise (AttributeError
             (match assoc "price" (attrs parentless) with
              | Some _ => field min_tracker
              | None => "price"
              end)).
Proof.
  apply (X7_min_without_parent_raises min_tracker parentless "price");
    reflexivity.
Defined.

(** X8: the delta is calculated before the event kind and the
    membership are looked at: when the calculation raises (a missing
    operand, an aggregate other than Count, Sum and Min), every event
    raises, also the event of a child that does not qualify.  The error
    is the one of the calculation, unless the instance lacks the foreign
    key attribute: then the [AttributeError] of that lookup comes
    first. *)
Theorem X8_delta_failure_fails_every_event (self : DenormalizedTracker)
    (i : instance) (created deleted : bool) (e : exn) :
  _get_delta self i (Some false) = Raise e ->
  track_changes self i created deleted =
    match getattr_related i (foreign_key self) with
    | Raise (AttributeError name) => Raise (AttributeError name)
    | _ => Raise e
    end.
Proof.
  intros Hd; unfold track_changes, getattr_related.
  destruct (assoc (foreign_key self) (relations i)) as [[fo|]|];
    cbn [bind]; try rewrite Hd; reflexivity.
Qed.

Lemma X8_delta_failure_fails_every_event_witness :
  track_changes max_tracker under_A true false =
    match getattr_related under_A (foreign_key max_tracker) with
    | Raise (AttributeError name) => Raise (AttributeError name)
    | _ => Raise NotImplementedError
    end.
Proof.
  apply (X8_delta_failure_fails_every_event max_tracker under_A true false).
  reflexivity.
Defined.

(** X9: for a [Sum] aggregate the delta is the value of the operand; for
    an operand that is an unevaluated expression it is the value the
    database holds, read by the refresh, and the [DoesNotExist] error of
    the refresh when the row of the instance is gone.  It depends
    neither on [deleted] nor on the parent, and a missing operand field
    raises [AttributeError]. *)
Theorem X9_sum_delta_is_materialised (self : DenormalizedTracker)
    (i : instance) (arg : string) (deleted : option bool) :
  aggregate_of self = Sum arg ->
  _get_delta self i deleted =
    match assoc arg (attrs i) with
    | Some (Concrete z) => Ok z
    | Some (Combined z) =>
        if in_database i then Ok z else Raise ObjectDoesNotExist
    | None => Raise (AttributeError arg)
    end.
Proof. apply sum_delta. Qed.

Lemma X9_sum_delta_is_materialised_witness :
  _get_delta sum_tracker vanished (Some true) =
    match assoc "amount" (attrs vanished) with
    | Some (Concrete z) => Ok z
    | Some (Combined z) =>
        if in_database vanished then Ok z else Raise ObjectDoesNotExist
    | None => Raise (AttributeError "amount")
    end.
Proof.
  apply (X9_sum_delta_is_materialised sum_tracker vanished "amount").
  reflexivity.
Defined.

(** X10: for a [Min] aggregate with a stored minimum [m], the delta of a
    child added with operand [v] is never positive, is zero exactly when
    [m <= v], and added to the stored minimum gives [min m v]. *)
Theorem X10_min_addition_lowers_to_min (self : DenormalizedTracker)
    (i : instance) (arg : string) (p : parent) (m v : Z) :
  aggregate_of self = Min arg ->
  getattr_field i arg = Ok (Concrete v) ->
  getattr_related i (foreign_key self) = Ok (Some p) ->
  getattr_parent (Some p) (field self) = Ok (Some m) ->
  exists d,
    _get_delta self i (Some false) = Ok d /\
    d <= 0 /\ (d = 0 <-> m <= v) /\ m + d = Z.min m v.
Proof.
  intros Hk Hv Hp Hm.
  exists (Z.min m v - m); split.
  - apply (min_addition_rule self i arg p (Some m) v Hk Hv Hp Hm).
  - repeat split; lia.
Qed.

Lemma X10_min_addition_lowers_to_min_witness :
  exists d,
    _get_delta min_tracker c5 (Some false) = Ok d /\
    d <= 0 /\ (d = 0 <-> 3 <= 5) /\ 3 + d = Z.min 3 5.
Proof.
  apply (X10_min_addition_lowers_to_min min_tracker c5 "price" M3 3 5);
    reflexivity.
Defined.

(** X11: [track_changes] never requests a full recompute: for the
    aggregates Count, Sum and Min no event lets the [NotImplementedError]
    of [_get_full_aggregate] escape, because the calculator is never
    asked with [deleted=True]. *)
Theorem X11_track_changes_never_recomputes (self : DenormalizedTracker)
    (i : instance) (created deleted : bool) :
  aggregate_of self <> OtherAggregate ->
  ~ full_recompute (track_changes self i created deleted).
Proof.
  intros Hk; unfold full_recompute.
  assert (Hd : _get_delta self i (Some false) <> Raise NotImplementedError).
  { unfold _get_delta, getattr_field, getattr_related, getattr_parent.
    destruct (aggregate_of self) as [|arg|arg|]; try discriminate;
      [| |congruence].
    - destruct (assoc arg (attrs i)) as [[z|z]|] eqn:Ha; cbn [bind];
        try discriminate.
      unfold refresh_from_db; destruct (in_database i); cbn [bind attrs];
        [|discriminate].
      rewrite (refresh_then_read arg (attrs i) z Ha); discriminate.
    - destruct (assoc arg (attrs i)) as [v|]; cbn [bind]; [|discriminate].
      destruct (assoc (foreign_key self) (relations i)) as [[[p|]|]|];
        cbn [bind]; try discriminate.
      destruct (assoc (field self) (pfields p)) as [[m|]|]; cbn [bind];
        destruct v; discriminate. }
  unfold track_changes, getattr_previous, getattr_related.
  destruct (assoc (foreign_key self) (relations i)) as [[fo|]|]; cbn [bind];
    try discriminate;
    (destruct (_get_delta self i (Some false)) as [d|e]; cbn [bind];
     [|congruence]);
    (destruct created;
     [destruct (callback self i); discriminate|]);
    (destruct deleted;
     [destruct (callback self i); discriminate|]);
    (destruct (previous_version i) as [old|]; cbn [bind]; [|discriminate]);
    (destruct (assoc (foreign_key self) (relations old)) as [[ofo|]|];
     cbn [bind]; try discriminate);
    match goal with
    | |- context [parent_eqb ?a ?b] => destruct (parent_eqb a b)
    end;
    destruct (callback self i), (callback self old); discriminate.
Qed.

Lemma X11_track_changes_never_recomputes_witness :
  ~ full_recompute (track_changes min_tracker c3 false true).
Proof.
  apply (X11_track_changes_never_recomputes min_tracker c3 false true).
  discriminate.
Defined.

(** ** Plans against the ground truth *)

Section Truth.

Variable self : DenormalizedTracker.

(** The applier skips what is not an entry, so the filter of the update
    branch does not change what a plan does. *)
Lemma apply_plan_filter (plan : list (option entry)) (st : store) :
  apply_plan (filter is_entry plan) st = apply_plan plan st.
Proof.
  unfold apply_plan; revert st.
  induction plan as [|[e|] plan IH]; intros st; cbn; auto.
Qed.

Lemma same_parent_same_key (fo ofo : option parent) (q : Z) :
  parent_eqb fo ofo = true ->
  match ofo with Some p => pk p =? q | None => false end =
  match fo with Some p => pk p =? q | None => false end.
Proof.
  destruct fo as [p|], ofo as [p'|]; cbn; try discriminate; auto.
  intros H; apply Z.eqb_eq in H; rewrite H; reflexivity.
Qed.

Lemma F_add_undo (current : option Z) (d : Z) :
  F_add (F_add current d) (d * -1) = current.
Proof. destruct current; cbn; [f_equal; lia|reflexivity]. Qed.

Lemma fold_min_swap (l : list Z) (v x : Z) :
  Z.min x (fold_right Z.min v l) = Z.min v (fold_right Z.min x l).
Proof.
  induction l as [|y l IH]; cbn; lia.
Qed.

Lemma minZ_cons (v : Z) (l : list Z) :
  minZ (v :: l) =
    Some (match minZ l with Some m => Z.min m v | None => v end).
Proof.
  destruct l as [|x l]; [reflexivity|].
  unfold minZ; cbn [fold_right]; f_equal.
  rewrite (fold_min_swap l v x); lia.
Qed.





Lemma operand_concrete (c : instance) (arg : string) (v : Z) :
  getattr_field c arg = Ok (Concrete v) -> operand arg c = v.
Proof. unfold operand; intros ->; reflexivity. Qed.

End Truth.

(** X12: for Count and Sum, and a new child whose operand can be read
    (an operand that is an unevaluated expression needs the row of the
    child in the database) and on which the tracker's membership
    function agrees with the membership of the spec: the plan of the
    create event, applied to stored values that equal the ground truth
    over the children, gives stored values that equal the ground truth
    over the children with the new child, for every parent, whether or
    not the child qualifies, has a parent, or has operand 0. *)
Theorem X12_create_keeps_truth (self : DenormalizedTracker)
    (children : list instance) (c : instance) (fo : option parent)
    (st : store) :
  additive self ->
  readable self c ->
  evaluate self c = callback self c ->
  getattr_related c (foreign_key self) = Ok fo ->
  (forall q, st q = ground_truth self children q) ->
  exists plan,
    track_changes self c true false = Ok plan /\
    forall q, apply_plan plan st q = ground_truth self (c :: children) q.
Proof. apply create_preserves_truth. Qed.

Lemma X12_create_keeps_truth_witness :
  exists plan,
    track_changes active_sum_tracker activated true false = Ok plan /\
    forall q, apply_plan plan (ground_truth active_sum_tracker [busy]) q
              = ground_truth active_sum_tracker [activated; busy] q.
Proof.
  apply (X12_create_keeps_truth active_sum_tracker [busy] activated (Some A)
           (ground_truth active_sum_tracker [busy])).
  - right; exists "amount"; reflexivity.
  - intros arg H; cbn in H; injection H as <-; reflexivity.
  - reflexivity.
  - reflexivity.
  - reflexivity.
Defined.

(** X13: for Count and Sum, and a deleted child whose operand can be read
    and on which the tracker's membership function agrees with the
    membership of the spec: the plan of the delete event, applied to
    stored values that equal the ground truth over the children, gives
    stored values that equal the ground truth over the children without
    the deleted child. *)
Theorem X13_delete_keeps_truth (self : DenormalizedTracker)
    (before after : list instance) (c : instance) (fo : option parent)
    (st : store) :
  additive self ->
  readable self c ->
  evaluate self c = callback self c ->
  getattr_related c (foreign_key self) = Ok fo ->
  (forall q, st q = ground_truth self (before ++ c :: after) q) ->
  exists plan,
    track_changes self c false true = Ok plan /\
    forall q, apply_plan plan st q = ground_truth self (before ++ after) q.
Proof. apply delete_preserves_truth. Qed.

Lemma X13_delete_keeps_truth_witness :
  exists plan,
    track_changes active_sum_tracker activated false true = Ok plan /\
    forall q,
      apply_plan plan
        (ground_truth active_sum_tracker ([busy] ++ activated :: [])) q
      = ground_truth active_sum_tracker ([busy] ++ []) q.
Proof.
  apply (X13_delete_keeps_truth active_sum_tracker [busy] [] activated
           (Some A)
           (ground_truth active_sum_tracker ([busy] ++ activated :: []))).
  - right; exists "amount"; reflexivity.
  - intros arg H; cbn in H; injection H as <-; reflexivity.
  - reflexivity.
  - reflexivity.
  - reflexivity.
Defined.

(** X14: for Count and Sum, and an instance whose operand can be read (an
    operand that is an unevaluated expression needs the row of the
    instance in the database): the plans of the create and of the delete
    event of the instance undo each other: applied in that order they
    leave the stored value of every parent as it was, for any operand
    and whether or not the child qualifies or has a parent. *)
Theorem X14_create_then_delete_restores (self : DenormalizedTracker)
    (c : instance) (fo : option parent) (st : store) :
  additive self ->
  readable self c ->
  getattr_related c (foreign_key self) = Ok fo ->
  exists created_plan deleted_plan,
    track_changes self c true false = Ok created_plan /\
    track_changes self c false true = Ok deleted_plan /\
    forall q, apply_plan deleted_plan (apply_plan created_plan st) q = st q.
Proof.
  intros Hadd Hread Hfo.
  do 2 eexists; split; [|split].
  - apply (track_changes_create_delete self c fo true false Hadd Hread Hfo).
    reflexivity.
  - apply (track_changes_create_delete self c fo false true Hadd Hread Hfo).
    reflexivity.
  - intros q; destruct (callback self c); [|reflexivity].
    rewrite !apply_single, Z.mul_1_r.
    destruct (match fo with Some p => pk p =? q | None => false end);
      [apply F_add_undo | reflexivity].
Qed.

Lemma X14_create_then_delete_restores_witness :
  exists created_plan deleted_plan,
    track_changes sum_tracker pending true false = Ok created_plan /\
    track_changes sum_tracker pending false true = Ok deleted_plan /\
    forall q, apply_plan deleted_plan
                (apply_plan created_plan (fun _ => Some 4)) q
              = (fun _ : Z => Some 4) q.
Proof.
  apply (X14_create_then_delete_restores sum_tracker pending (Some P)
           (fun _ => Some 4)).
  - right; exists "amount"; reflexivity.
  - intros arg H; cbn in H; injection H as <-; reflexivity.
  - reflexivity.
Defined.

(** X15: for Count and Sum, whenever an update event returns a plan, the
    plan applied to stored values that equal the ground truth over the
    children with the previous version gives the ground truth over the
    children with the instance, provided a child that qualified before
    contributes what it contributed before (always so for Count); the
    entry of a child that stops qualifying is computed from the instance
    after the change. *)
Theorem X15_update_plan_keeps_truth (self : DenormalizedTracker)
    (i old : instance) (fo ofo : option parent)
    (before after : list instance) (st : store)
    (plan : list (option entry)) :
  additive self ->
  (forall arg, aggregate_of self = Sum arg ->
               exists v, getattr_field i arg = Ok v) ->
  previous_version i = Some old ->
  getattr_related i (foreign_key self) = Ok fo ->
  getattr_related old (foreign_key self) = Ok ofo ->
  (callback self old = true -> contribution self old = contribution self i) ->
  (forall q, st q = ground_truth self (before ++ old :: after) q) ->
  track_changes self i false false = Ok plan ->
  forall q, apply_plan plan st q = ground_truth self (before ++ i :: after) q.
Proof.
  intros Hadd Hread Hprev Hfo Hofo Hsame Hinv Hplan q.
  assert (Hq := Hinv q).
  rewrite (ground_truth_insert self before after old q Hadd) in Hq.
  rewrite (ground_truth_insert self before after i q Hadd).
  rewrite (qualifies_spec self old ofo q Hofo) in Hq.
  rewrite (qualifies_spec self i fo q Hfo).
  revert Hplan; unfold track_changes, getattr_previous.
  rewrite Hfo, Hprev; cbn [bind].
  destruct (_get_delta self i (Some false)) as [d|e] eqn:Hd; cbn [bind];
    [|discriminate].
  apply (get_delta_ok_contribution self i d Hadd) in Hd; subst d.
  rewrite Hofo; cbn [bind].
  assert (Hmem : (forall c, evaluate self c = callback self c) \/
                 (forall c, callback self c = true)).
  { unfold evaluate, callback; destruct (callback_of self);
      [left|right]; reflexivity. }
  destruct Hmem as [Hmem|Htrue].
  - rewrite (Hmem old) in Hq; rewrite (Hmem i).
    destruct (parent_eqb fo ofo) eqn:Heq; cbn [andb negb].
    + rewrite (same_parent_same_key fo ofo q Heq) in Hq.
      destruct (callback self i), (callback self old);
        cbn [b2z Z.sub Z.add Z.opp Z.eqb negb bind old_delta andb] in *;
        try discriminate; intros H%Ok_inj; subst plan;
        rewrite apply_plan_filter, apply_single.
      * rewrite Z.mul_1_r, Hq; reflexivity.
      * rewrite Hq, <- (Hsame eq_refl).
        destruct (match fo with Some p => pk p =? q | None => false end);
          [apply F_add_undo | reflexivity].
    + destruct (callback self old); cbn [bind old_delta andb] in *;
        [discriminate|].
      destruct (callback self i); cbn [app andb];
        intros H%Ok_inj; subst plan; rewrite apply_plan_filter.
      * rewrite apply_single, Z.mul_1_r, Hq; reflexivity.
      * exact Hq.
  - rewrite (Htrue i), (Htrue old).
    destruct (parent_eqb fo ofo); cbn; discriminate.
Qed.

Lemma X15_update_plan_keeps_truth_witness :
  apply_plan [Some (A, mk_updates "n" 1)]
    (ground_truth active_tracker ([busy] ++ idle :: [])) 1
  = ground_truth active_tracker ([busy] ++ activated :: []) 1.
Proof.
  apply (X15_update_plan_keeps_truth active_tracker activated idle
           (Some A) (Some A) [busy] []
           (ground_truth active_tracker ([busy] ++ idle :: []))
           [Some (A, mk_updates "n" 1)]).
  - left; reflexivity.
  - intros arg H; discriminate H.
  - reflexivity.
  - reflexivity.
  - reflexivity.
  - intros _; reflexivity.
  - reflexivity.
  - reflexivity.
Defined.

(** X16: for Min, when the parent object carries its stored minimum [m],
    the stored values equal the ground truth, and the tracker's
    membership function agrees with the membership of the spec on the
    new child, the plan of a create event gives stored values that equal
    the ground truth over the children with the new child: the stored
    minimum becomes [min m v]. *)
Theorem X16_min_create_keeps_truth (self : DenormalizedTracker)
    (children : list instance) (c : instance) (arg : string) (p : parent)
    (m v : Z) (st : store) :
  aggregate_of self = Min arg ->
  getattr_field c arg = Ok (Concrete v) ->
  getattr_related c (foreign_key self) = Ok (Some p) ->
  getattr_parent (Some p) (field self) = Ok (Some m) ->
  evaluate self c = callback self c ->
  st (pk p) = Some m ->
  (forall q, st q = ground_truth self children q) ->
  exists plan,
    track_changes self c true false = Ok plan /\
    forall q, apply_plan plan st q = ground_truth self (c :: children) q.
Proof.
  intros Hk Hv Hp Hm Hmem Hst Hinv.
  unfold track_changes; rewrite Hp; cbn [bind].
  rewrite (min_addition_rule self c arg p (Some m) v Hk Hv Hp Hm); cbn [bind].
  destruct (callback self c) eqn:Hcb; (eexists; split; [reflexivity|]);
    intros q; assert (Hq := Hinv q); unfold ground_truth in *;
    rewrite Hk in *; cbn [filter];
    rewrite (qualifies_spec self c (Some p) q Hp), Hmem; cbn [andb];
    [|exact Hq].
  rewrite apply_single, Z.mul_1_r.
  destruct (pk p =? q) eqn:Hpq; [|exact Hq].
  apply Z.eqb_eq in Hpq; subst q.
  cbn [map]; rewrite minZ_cons, <- Hq, Hst, (operand_concrete c arg v Hv).
  cbn [F_add]; f_equal; lia.
Qed.

Lemma X16_min_create_keeps_truth_witness :
  exists plan,
    track_changes min_tracker (priced 2 None) true false = Ok plan /\
    forall q, apply_plan plan (ground_truth min_tracker [c3; c5]) q
              = ground_truth min_tracker [priced 2 None; c3; c5] q.
Proof.
  apply (X16_min_create_keeps_truth min_tracker [c3; c5] (priced 2 None)
           "price" M3 3 2 (ground_truth min_tracker [c3; c5]));
    reflexivity.
Defined.


